(** * Server-side rendering entry point of react-pages

    A shallow embedding of [source/server/render.js]: the asynchronous
    [render] function (the module's default export), its nested
    [generateOuterHtml] routine, the [redirect] closure handed to the
    [onError] callback, and [normalizeRedirect].

    JavaScript values are modelled by their shape in the source: an
    object with optional fields is a record of [option]s, a numeric
    timing object is a finite map from field names to numbers, an array
    is a list, [undefined] is [None].  The collaborators imported from
    other modules are gathered in the class [Collaborators]. *)

From Stdlib Require Import String Ascii ZArith List Bool Lia.
From stdpp Require Import base option list strings gmap.

#[local] Set Warnings "-register-all".
Local Open Scope string_scope.
Local Open Scope Z_scope.

(** ** Strings *)

(** The double-quote character, used inside error messages. *)
Definition dquote : string := String (ascii_of_nat 34) EmptyString.

Definition quoted (s : string) : string := dquote +:+ s +:+ dquote.

(** [path.replace(/\/$/, '')]: the pattern has no flags, so the dollar
    sign matches at the very end of the input only and at most one slash
    is removed. *)
Fixpoint replace_trailing_slash (s : string) : string :=
  match s with
  | EmptyString => EmptyString
  | String c rest =>
      match rest with
      | EmptyString => if Ascii.eqb c "/" then EmptyString else s
      | String _ _ => String c (replace_trailing_slash rest)
      end
  end.

(** JavaScript truthiness of a possibly [undefined] string: [undefined]
    and the empty string are falsy. *)
Definition truthy_string (v : option string) : bool :=
  match v with
  | Some (String _ _) => true
  | _ => false
  end.

(** [array.join('')] on an array of strings. *)
Definition join (l : list string) : string :=
  fold_right String.append EmptyString l.

(** [array.splice(index, 0, element)]: insert [element] at [index]. *)
Definition splice {A} (index : nat) (element : A) (array : list A) : list A :=
  take index array ++ element :: drop index array.

(** ** Data model *)

(** A parsed URL.  [origin] is absent for a relative location. *)
Record Location := {
  origin : option string;
  pathname : string;
  search : string
}.

(** The asset descriptor.  Only [entries] and [javascript] are inspected
    by this module; [javascript] maps an entry name to a script URL. *)
Record Assets := {
  entries : option (list string);
  javascript : option (gmap string string)
}.

(** A configuration value that is either given literally or computed
    from the path and the initializer parameters
    ([typeof x === 'function' ? x(path, parameters) : x]). *)
Inductive modifier (P A : Type) :=
| Literal (a : A)
| Function (f : string -> P -> A).
Arguments Literal {P A} a.
Arguments Function {P A} f.

Definition resolve {P A} (m : modifier P A) (path : string) (parameters : P) : A :=
  match m with
  | Literal a => a
  | Function f => f path parameters
  end.

(** The [html] option: [{ head, bodyStart, bodyEnd }]. *)
Record Html (P : Type) := {
  head : modifier P (option string);
  bodyStart : modifier P (option string);
  bodyEnd : modifier P (option string)
}.
Arguments head {P} _.
Arguments bodyStart {P} _.
Arguments bodyEnd {P} _.

(** Argument objects of the two HTML templates of [./html]. *)
Record BeforeContent := {
  bc_assets : Assets;
  bc_locale : option string;
  bc_meta : string;
  bc_head : option string;
  bc_bodyStart : option string
}.

Record AfterContent := {
  ac_javascript : string;
  ac_assets : Assets;
  ac_locale : option string;
  ac_bodyEnd : option string;
  ac_protected_cookie_value : option string;
  ac_contentNotRendered : bool
}.

(** The types this module only passes around. *)
Class Signature := {
  RawSettings : Type;
  Routes : Type;
  Container : Type;
  ContainerProps : Type;
  Content : Type;
  Cookie : Type;
  Proxy : Type;
  InitializeHook : Type;
  State : Type;
  OtherParameters : Type;
  Exn : Type
}.

Section Model.
Context {Sg : Signature}.

(** A thrown value: the configuration error built by [generateOuterHtml]
    with [new Error(message)], or a value thrown by a collaborator. *)
Inductive thrown :=
| ConfigurationError (message : string)
| External (e : Exn).

Record Store := { getState : unit -> State }.

(** What remains of the initializer result after [cookies] and
    [generateJavascript] have been taken out ([...parameters]). *)
Record Parameters := {
  store : Store;
  other : OtherParameters
}.

(** [React.createElement(container, containerProps, content)]. *)
Record Element := {
  el_type : Container;
  el_props : ContainerProps;
  el_children : Content
}.

(** Output streams, by the way they are made: from a string
    ([string-to-stream]), from a React element
    ([ReactDOM.renderToNodeStream]), or from an array of streams read one
    after the other ([multistream]). *)
Inductive stream :=
| StringStream (s : string)
| NodeStream (pageElement : Element)
| MultiStream (streams : list stream).

Definition createStringStream (s : string) : stream := StringStream s.
Definition combineStreams (streams : list stream) : stream := MultiStream streams.

(** The second argument of the [onError] callback, without its
    [redirect] member, which is modelled by [redirect_closure] below. *)
Record onErrorParameters := {
  server : bool;
  path : string;
  url : string;
  oe_getState : unit -> State
}.

(** What one synchronous run of the [onError] callback does that
    [render] can observe: the arguments of its calls to [redirect], in
    order, and whether it returned ([None]) or threw ([Some e]).  The
    callback is not awaited: a call of [redirect] made later, from an
    asynchronous continuation, comes after [render] has looked at the
    variable and is no part of the run. *)
Record handler_run := {
  redirect_calls : list string;
  completion : option thrown
}.

Definition Handler := thrown -> onErrorParameters -> handler_run.

Record Authentication := { protectedCookie : option string }.

Record Settings := {
  routes : Routes;
  container : Container;
  authentication : option Authentication;
  onError : option Handler;
  basename : option string
}.

Record InitializeArguments := {
  ia_protected_cookie_value : option string;
  ia_proxy : Proxy;
  ia_cookies : string -> option string;
  ia_initialize : InitializeHook;
  ia_url : string
}.

Record InitializeResult := {
  cookiesToSet : list Cookie;
  generateJavascript : unit -> string;
  parameters : Parameters
}.

(** The object the Page Renderer resolves to. *)
Record PageResult := {
  pr_redirect : option Location;
  pr_route : string;
  pr_status : Z;
  pr_content : Content;
  pr_meta : gmap string string;
  pr_containerProps : ContainerProps;
  pr_time : gmap string Z
}.

(** The options object: the second argument of [render]. *)
Record Options := {
  initialize : InitializeHook;
  assets : modifier Parameters Assets;
  proxy : Proxy;
  opt_url : string;
  renderContent : option bool;
  html : Html Parameters;
  cookies : string -> option string;
  locales : list string
}.

(** The content descriptor [{ route, status, content, time, cookies }].
    [cr_time] is [None] when the object has no [time] member. *)
Record ContentDescriptor := {
  cr_route : string;
  cr_status : Z;
  cr_content : stream;
  cr_time : option (gmap string Z);
  cr_cookies : list Cookie
}.

(** The value [render] resolves to: [{ redirect }] or a content
    descriptor. *)
Inductive RenderResult :=
| RedirectResult (redirect : string)
| ContentResult (c : ContentDescriptor).

(** An awaited call of an asynchronous collaborator: the time it takes
    and whether the promise rejects or resolves. *)
Definition awaited (A : Type) : Type := Z * (Exn + A).

(** The functions imported from the other modules of the repository and
    from React.  The two asynchronous ones may reject; the synchronous
    ones are taken to return. *)
Class Collaborators := {
  normalizeSettings : RawSettings -> Exn + Settings;
  reduxInitialize : Settings -> InitializeArguments -> awaited InitializeResult;
  reduxRender : Parameters -> Routes -> awaited PageResult;
  parseLocation : string -> Location;
  getLocationUrl : Location -> option string -> string;
  render_before_content : BeforeContent -> string;
  render_after_content : AfterContent -> string;
  generateMetaTagsMarkup : gmap string string -> list string
}.

Context {Co : Collaborators}.

(** ** Effects

    [render] is an [async] function whose two [await]s are sequential, so
    it is modelled as one sequential computation.  The world it runs in
    has a clock, advanced by the awaited calls, and a trace of the calls
    made to the collaborators whose invocation the specification speaks
    about. *)
Inductive event :=
| InitializerCalled (s : Settings) (a : InitializeArguments)
| PageRendererCalled (p : Parameters) (r : Routes)
| PageElementRendered (pageElement : Element)
| ErrorHandlerCalled (error : thrown) (p : onErrorParameters).

Record world := { now : Z; trace : list event }.

(** A computation either throws (a rejected promise) or returns. *)
Definition M (A : Type) : Type := world -> world * (thrown + A).

Definition ret {A} (a : A) : M A := fun w => (w, inr a).

Definition throw {A} (e : thrown) : M A := fun w => (w, inl e).

Definition bind {A B} (m : M A) (k : A -> M B) : M B :=
  fun w =>
    match m w with
    | (w', inl e) => (w', inl e)
    | (w', inr a) => k a w'
    end.

(** [try { m } catch (error) { h error }] *)
Definition try_catch {A} (m : M A) (h : thrown -> M A) : M A :=
  fun w =>
    match m w with
    | (w', inl e) => h e w'
    | (w', inr a) => (w', inr a)
    end.

Definition emit (e : event) : M unit :=
  fun w => ({| now := now w; trace := trace w ++ [e] |}, inr tt).

(** A synchronous call that may throw. *)
Definition call {A} (r : thrown + A) : M A := fun w => (w, r).

(** [await c]: time passes, then the promise settles. *)
Definition await {A} (c : awaited A) : M A :=
  fun w =>
    ({| now := now w + c.1; trace := trace w |},
     match c.2 with
     | inl e => inl (External e)
     | inr a => inr a
     end).

(** Modelled from the spec: the [timer] helper of [../timer] is not part
    of this file; the specification says a timer is started and the
    elapsed time recorded.  [timer()] notes the current time and returns
    a function giving the time elapsed since. *)
Definition timer : M (M Z) :=
  fun w => (w, inr (fun w' => (w', inr (now w' - now w)))).

End Model.

Declare Scope render_scope.
Delimit Scope render_scope with render.
Notation "'let*' x ':=' m 'in' k" := (bind m (fun x => k))
  (at level 10, x pattern, m at level 100, k at level 200) : render_scope.

(** ** The program *)

Section Program.
Context {Sg : Signature} {Co : Collaborators}.
Local Open Scope render_scope.

(** The message of the error thrown when no asset entry is known. *)
Definition entries_required_message : string :=
  quoted "assets.entries[]" +:+
  " configuration parameter is required: it includes all Webpack " +:+
  quoted "entries" +:+
  " for which javascripts and styles must be included on a server-rendered page. If you didn't set up any custom " +:+
  quoted "entries" +:+
  " in Webpack configuration then the default Webpack entry is called " +:+
  quoted "main" +:+
  ". You don't seem to have the " +:+
  quoted "main" +:+
  " entry so the server doesn't know which assets to include on the page (" +:+
  quoted "['main']" +:+
  " is the default value for " +:+
  quoted "assets.entries" +:+
  ").".

(** [assets.javascript && assets.javascript.main] as a condition. *)
Definition has_main_javascript (a : Assets) : bool :=
  match javascript a with
  | Some scripts => truthy_string (scripts !! "main")
  | None => false
  end.

(** [assets.entries = ['main']] *)
Definition set_entries (a : Assets) (l : list string) : Assets :=
  {| entries := Some l; javascript := javascript a |}.

(** The nested function [generateOuterHtml(meta)].  The variables it
    closes over are arguments here: [html], [assets] and [locales] come
    with the options, [path] from the parsed URL, [parameters] and
    [generateJavascript] with the initializer result.  [renderContent]
    is an argument of its own because [render] assigns to it before one
    of the two calls.  The function runs at most once in a [render] call,
    so its assignments to the variable [assets] and to [assets.entries]
    show only in the assets it hands to the templates.  The result is the
    pair [[ before_content, after_content ]]. *)
Definition generateOuterHtml (o : Options) (path : string)
    (init : InitializeResult) (protected_cookie_value : option string)
    (renderContent : option bool) (meta : gmap string string)
  : thrown + (string * string) :=
  let head := resolve (head (html o)) path (parameters init) in
  let bodyStart := resolve (bodyStart (html o)) path (parameters init) in
  let bodyEnd := resolve (bodyEnd (html o)) path (parameters init) in
  let assets := resolve (assets o) path (parameters init) in
  let checked :=
    match entries assets with
    | Some _ => inr assets
    | None =>
        if has_main_javascript assets
        then inr (set_entries assets ["main"])
        else inl (ConfigurationError entries_required_message)
    end in
  match checked with
  | inl e => inl e
  | inr assets =>
      let locale := locales o !! 0%nat in
      let before_content :=
        render_before_content
          {| bc_assets := assets;
             bc_locale := locale;
             bc_meta := join (generateMetaTagsMarkup meta);
             bc_head := head;
             bc_bodyStart := bodyStart |} in
      let after_content :=
        render_after_content
          {| ac_javascript := generateJavascript init tt;
             ac_assets := assets;
             ac_locale := locale;
             ac_bodyEnd := bodyEnd;
             ac_protected_cookie_value := protected_cookie_value;
             ac_contentNotRendered :=
               match renderContent with Some false => true | _ => false end |} in
      inr (before_content, after_content)
  end.

(** [normalizeRedirect(redirect, basename)] *)
Definition normalizeRedirect (redirect : Location) (basename : option string) : string :=
  getLocationUrl redirect basename.

(** The arrow function given to [onError] as [redirect], as a
    transformer of the variable [redirect] it assigns to.  A parsed
    location is an object, hence truthy. *)
Definition redirect_closure (to : string) (redirect : option Location)
  : option Location :=
  match redirect with
  | None => Some (parseLocation to)
  | Some _ => redirect
  end.

(** The variable [redirect] after the calls a handler run makes. *)
Definition requested_redirect (calls : list string) : option Location :=
  fold_left (fun redirect to => redirect_closure to redirect) calls None.

(** [onError(error, onErrorParameters)]: the run calls [redirect] as
    often as it likes and then returns or throws.  What comes back is the
    value of the variable [redirect]. *)
Definition call_onError (handler : Handler) (error : thrown)
    (p : onErrorParameters) : M (option Location) :=
  let* _ := emit (ErrorHandlerCalled error p) in
  let run := handler error p in
  let redirect := requested_redirect (redirect_calls run) in
  match completion run with
  | Some e => throw e
  | None => ret redirect
  end.

(** [ReactDOM.renderToNodeStream(pageElement)] *)
Definition ReactDOM_renderToNodeStream (pageElement : Element) : M stream :=
  let* _ := emit (PageElementRendered pageElement) in
  ret (NodeStream pageElement).

Definition is_base_path (path : string) : bool :=
  String.eqb (replace_trailing_slash path) "/react-website-base".

(** The body of the [try] block. *)
Definition render_try (settings : Settings) (o : Options)
    (protected_cookie_value : option string) (init : InitializeResult)
    (initializeTimer : M Z) (path : string) : M RenderResult :=
  let* initializeTime := initializeTimer in
  if is_base_path path then
    let renderContent := Some false in
    let* (before_content, after_content) :=
      call (generateOuterHtml o path init protected_cookie_value renderContent ∅) in
    ret (ContentResult
           {| cr_route := "/react-website-base";
              cr_status := 200;
              cr_content := createStringStream (before_content +:+ after_content);
              cr_time := None;
              cr_cookies := [] |})
  else
    let* _ := emit (PageRendererCalled (parameters init) (routes settings)) in
    let* page := await (reduxRender (parameters init) (routes settings)) in
    match pr_redirect page with
    | Some redirect =>
        ret (RedirectResult (normalizeRedirect redirect (basename settings)))
    | None =>
        let* (before_content, after_content) :=
          call (generateOuterHtml o path init protected_cookie_value
                  (renderContent o) (pr_meta page)) in
        let streams :=
          [createStringStream before_content; createStringStream after_content] in
        let* streams :=
          match renderContent o with
          | Some false => ret streams
          | _ =>
              let pageElement :=
                {| el_type := container settings;
                   el_props := pr_containerProps page;
                   el_children := pr_content page |} in
              let* node := ReactDOM_renderToNodeStream pageElement in
              ret (splice (length streams / 2) node streams)
          end in
        ret (ContentResult
               {| cr_route := pr_route page;
                  cr_status := pr_status page;
                  cr_content := combineStreams streams;
                  cr_time := Some (<["initialize" := initializeTime]> (pr_time page));
                  cr_cookies := cookiesToSet init |})
    end.

(** The object [onErrorParameters] built in the [catch] block. *)
Definition error_parameters (init : InitializeResult) (location : Location)
  : onErrorParameters :=
  {| server := true;
     path := pathname location;
     url := getLocationUrl location None;
     oe_getState := getState (store (parameters init)) |}.

(** The body of the [catch] block. *)
Definition render_catch (settings : Settings) (init : InitializeResult)
    (location : Location) (error : thrown) : M RenderResult :=
  match onError settings with
  | Some handler =>
      let onErrorParameters := error_parameters init location in
      let* redirect := call_onError handler error onErrorParameters in
      match redirect with
      | Some redirect =>
          ret (RedirectResult (normalizeRedirect redirect (basename settings)))
      | None => throw error
      end
  | None => throw error
  end.

(** Reading the protected cookie:
    [if (authentication && authentication.protectedCookie)
       protected_cookie_value = cookies.get(authentication.protectedCookie)]. *)
Definition read_protected_cookie (settings : Settings) (o : Options)
  : option string :=
  match authentication settings with
  | Some a =>
      match protectedCookie a with
      | Some (String _ _ as name) => cookies o name
      | _ => None
      end
  | None => None
  end.

(** The second argument of the initializer call. *)
Definition initialize_arguments (settings : Settings) (o : Options)
  : InitializeArguments :=
  {| ia_protected_cookie_value := read_protected_cookie settings o;
     ia_proxy := proxy o;
     ia_cookies := cookies o;
     ia_initialize := initialize o;
     ia_url := opt_url o |}.

(** The default export. *)
Definition render (settings : RawSettings) (o : Options) : M RenderResult :=
  let* settings :=
    call (match normalizeSettings settings with
          | inl e => inl (External e)
          | inr s => inr s
          end) in
  let protected_cookie_value := read_protected_cookie settings o in
  let* initializeTimer := timer in
  let* _ := emit (InitializerCalled settings (initialize_arguments settings o)) in
  let* init := await (reduxInitialize settings (initialize_arguments settings o)) in
  let location := parseLocation (opt_url o) in
  let path := pathname location in
  try_catch
    (render_try settings o protected_cookie_value init initializeTimer path)
    (render_catch settings init location).

(** ** Reading the results *)

(** What a consumer reads from a stream, given the markup React emits
    for an element. *)
Fixpoint stream_output (markup : Element -> string) (s : stream) : string :=
  match s with
  | StringStream str => str
  | NodeStream pageElement => markup pageElement
  | MultiStream streams => join (map (stream_output markup) streams)
  end.

(** The number of times the [onError] callback has been invoked. *)
Definition is_handler_call (ev : event) : bool :=
  match ev with ErrorHandlerCalled _ _ => true | _ => false end.

Definition handler_invocations (t : list event) : nat :=
  length (List.filter is_handler_call t).

(** The number of page elements handed to React for rendering. *)
Definition is_element_rendering (ev : event) : bool :=
  match ev with PageElementRendered _ => true | _ => false end.

Definition elements_rendered (t : list event) : nat :=
  length (List.filter is_element_rendering t).

(** The number of calls made to the Page Renderer. *)
Definition is_page_renderer_call (ev : event) : bool :=
  match ev with PageRendererCalled _ _ => true | _ => false end.

Definition page_renderer_calls (t : list event) : nat :=
  length (List.filter is_page_renderer_call t).

(** Modelled from the spec: [getLocationUrl] of [../location] is not part
    of this file.  The specification describes the serialization of a
    location back to a string, with the basename prepended when the
    target is relative, that is, when it has no origin. *)
Definition getLocationUrl_spec (l : Location) (basename : option string) : string :=
  match origin l with
  | Some o => o +:+ pathname l +:+ search l
  | None => default EmptyString basename +:+ pathname l +:+ search l
  end.

(** ** Vocabulary of the statements *)

Implicit Types (w : world) (s : Settings) (o : Options)
  (init : InitializeResult) (page : PageResult) (e : thrown).

(** The world once the initializer call has settled after [d]. *)
Definition initialized (w : world) s o (d : Z) : world :=
  {| now := now w + d;
     trace := trace w ++ [InitializerCalled s (initialize_arguments s o)] |}.

(** The world once the Page Renderer call has settled after [d]. *)
Definition page_rendered (w : world) s init (d : Z) : world :=
  {| now := now w + d;
     trace := trace w ++ [PageRendererCalled (parameters init) (routes s)] |}.

(** The world after one more event. *)
Definition logged (w : world) (ev : event) : world :=
  {| now := now w; trace := trace w ++ [ev] |}.

(** The path [render] works with. *)
Definition request_path o : string := pathname (parseLocation (opt_url o)).

(** The resolved asset descriptor can be used as it is or after the
    default entry has been filled in. *)
Definition entries_known (a : Assets) : bool :=
  match entries a with
  | Some _ => true
  | None => has_main_javascript a
  end.

(** The assets as [generateOuterHtml] resolves them. *)
Definition resolved_assets o init : Assets :=
  resolve (assets o) (request_path o) (parameters init).

(** The assets the templates receive: as resolved, or with the default
    entry filled in. *)
Definition effective_assets (a : Assets) : Assets :=
  match entries a with
  | Some _ => a
  | None => set_entries a ["main"]
  end.

(** The argument objects [generateOuterHtml] passes to the templates. *)
Definition before_arguments o (path : string) init (meta : gmap string string)
  : BeforeContent :=
  {| bc_assets := effective_assets (resolve (assets o) path (parameters init));
     bc_locale := locales o !! 0%nat;
     bc_meta := join (generateMetaTagsMarkup meta);
     bc_head := resolve (head (html o)) path (parameters init);
     bc_bodyStart := resolve (bodyStart (html o)) path (parameters init) |}.

Definition after_arguments o (path : string) init (pcv : option string)
    (contentNotRendered : bool) : AfterContent :=
  {| ac_javascript := generateJavascript init tt;
     ac_assets := effective_assets (resolve (assets o) path (parameters init));
     ac_locale := locales o !! 0%nat;
     ac_bodyEnd := resolve (bodyEnd (html o)) path (parameters init);
     ac_protected_cookie_value := pcv;
     ac_contentNotRendered := contentNotRendered |}.

(** [renderContent === false] *)
Definition content_disabled (rc : option bool) : bool :=
  match rc with Some false => true | _ => false end.

(** The timer started at time [t0]. *)
Definition timer_since (t0 : Z) : M Z := fun w' => (w', inr (now w' - t0)).

(** The page element built from the Page Renderer's result. *)
Definition page_element s page : Element :=
  {| el_type := container s;
     el_props := pr_containerProps page;
     el_children := pr_content page |}.

(** The streams handed to [combineStreams]. *)
Definition page_streams s o page (before_content after_content : string)
  : list stream :=
  if content_disabled (renderContent o)
  then [createStringStream before_content; createStringStream after_content]
  else [createStringStream before_content;
        NodeStream (page_element s page);
        createStringStream after_content].

(** The world after the page element, if any, has been handed to React. *)
Definition page_streamed (w : world) s o page : world :=
  if content_disabled (renderContent o) then w
  else logged w (PageElementRendered (page_element s page)).

(** Where a redirect result can come from: the redirect descriptor of
    the Page Renderer, or the first call of [redirect] made by the error
    handler. *)
Definition redirect_source s (target : Location) : Prop :=
  (exists init (d : Z) page,
      reduxRender (parameters init) (routes s) = (d, inr page) /\
      pr_redirect page = Some target) \/
  (exists (handler : Handler) e (p : onErrorParameters) (to : string),
      onError s = Some handler /\
      hd_error (redirect_calls (handler e p)) = Some to /\
      target = parseLocation to).

(** Outer-HTML generation is reached: on the reserved path at once, on
    any other path after the Page Renderer has resolved without a
    redirect. *)
Definition reaches_outer_html s o init : Prop :=
  is_base_path (request_path o) = true \/
  (is_base_path (request_path o) = false /\
   exists (d : Z) page,
     reduxRender (parameters init) (routes s) = (d, inr page) /\
     pr_redirect page = None).

(** The number of calls made to the State Initializer. *)
Definition is_initializer_call (ev : event) : bool :=
  match ev with InitializerCalled _ _ => true | _ => false end.

Definition initializer_calls (t : list event) : nat :=
  length (List.filter is_initializer_call t).

(** The options with another value of [renderContent]. *)
Definition with_renderContent o (rc : option bool) : Options :=
  {| initialize := initialize o;
     assets := assets o;
     proxy := proxy o;
     opt_url := opt_url o;
     renderContent := rc;
     html := html o;
     cookies := cookies o;
     locales := locales o |}.

(** [assets] and the three members of [html] are all given literally. *)
Definition literal_modifiers o : bool :=
  match assets o, head (html o), bodyStart (html o), bodyEnd (html o) with
  | Literal _, Literal _, Literal _, Literal _ => true
  | _, _, _, _ => false
  end.

End Program.

(** ** A small site to run the program on *)

Module Demo.

Definition signature : Signature :=
  {| RawSettings := unit;
     Routes := list string;
     Container := string;
     ContainerProps := list string;
     Content := string;
     Cookie := string;
     Proxy := unit;
     InitializeHook := unit;
     State := unit;
     OtherParameters := unit;
     Exn := string |}.
#[local] Existing Instance signature.

(** A location parser good enough for relative URLs without a query. *)
Definition parse (u : string) : Location :=
  {| origin := None; pathname := u; search := EmptyString |}.

Definition settings (handler : option Handler) : Settings :=
  {| routes := ["/"; "/about"];
     container := "App";
     authentication := Some {| protectedCookie := Some "token" |};
     onError := handler;
     basename := Some "/app" |}.

Definition initial : InitializeResult :=
  {| cookiesToSet := ["session=1"];
     generateJavascript := fun _ => "window._data={}";
     parameters := {| store := {| getState := fun _ => tt |}; other := tt |} |}.

Definition page (redirect : option Location) (time : gmap string Z) : PageResult :=
  {| pr_redirect := redirect;
     pr_route := "/about";
     pr_status := 200;
     pr_content := "About";
     pr_meta := ∅;
     pr_containerProps := [];
     pr_time := time |}.

Definition site (s : Settings) (i : awaited InitializeResult)
    (p : awaited PageResult) : Collaborators :=
  {| normalizeSettings := fun _ => inr s;
     reduxInitialize := fun _ _ => i;
     reduxRender := fun _ _ => p;
     parseLocation := parse;
     getLocationUrl := getLocationUrl_spec;
     render_before_content := fun b => "<html><head>" +:+ bc_meta b +:+ "</head><body>";
     render_after_content := fun a =>
       (if ac_contentNotRendered a then "<!-- no content -->" else EmptyString) +:+
       "<script>" +:+ ac_javascript a +:+ "</script></body></html>";
     generateMetaTagsMarkup := fun _ => ["<title>Demo</title>"] |}.

Definition bundled : Assets :=
  {| entries := None; javascript := Some {["main" := "/main.js"]} |}.

Definition unbundled : Assets :=
  {| entries := None; javascript := None |}.

Definition request (u : string) (a : Assets) (rc : option bool) : Options :=
  {| initialize := tt;
     assets := Literal a;
     proxy := tt;
     opt_url := u;
     renderContent := rc;
     html := {| head := Literal None; bodyStart := Literal None; bodyEnd := Literal None |};
     cookies := fun _ => None;
     locales := ["en"] |}.

Definition start : world := {| now := 1000; trace := [] |}.

(** Error handlers. *)
Definition to_login : Handler :=
  fun _ _ => {| redirect_calls := ["/login"; "/elsewhere"]; completion := None |}.

Definition silent : Handler :=
  fun _ _ => {| redirect_calls := []; completion := None |}.

Definition failing : Handler :=
  fun _ _ => {| redirect_calls := []; completion := Some (External "HandlerError") |}.

Definition failing_after_redirect : Handler :=
  fun _ _ => {| redirect_calls := ["/login"]; completion := Some (External "HandlerError") |}.

(** The site with a working initializer that takes 7 time units. *)
Definition served (handler : option Handler) (p : awaited PageResult)
  : Collaborators :=
  site (settings handler) (7, inr initial) p.

(** The site whose initializer fails. *)
Definition down (handler : option Handler) : Collaborators :=
  site (settings handler) (7, inl "NetworkError") (3, inr (page None ∅)).

Definition about : awaited PageResult := (3, inr (page None ∅)).

Definition broken : awaited PageResult := (3, inl "PageError").

Definition home : Location :=
  {| origin := None; pathname := "/foo"; search := EmptyString |}.

Definition before_html : string :=
  "<html><head><title>Demo</title></head><body>".

Definition after_html : string :=
  "<script>window._data={}</script></body></html>".

Definition shell_after_html : string :=
  "<!-- no content --><script>window._data={}</script></body></html>".

(** Assets with an explicit, empty list of entries and no scripts. *)
Definition bare : Assets :=
  {| entries := Some []; javascript := None |}.

(** The content descriptor of the page [/about] on the served site. *)
Definition about_descriptor : ContentDescriptor :=
  {| cr_route := "/about";
     cr_status := 200;
     cr_content :=
       combineStreams
         [createStringStream before_html;
          NodeStream {| el_type := "App"; el_props := []; el_children := "About" |};
          createStringStream after_html];
     cr_time := Some {["initialize" := 7]};
     cr_cookies := ["session=1"] |}.

(** A redirect descriptor from the Page Renderer. *)
Definition moved : awaited PageResult := (3, inr (page (Some home) ∅)).

(** The site whose settings cannot be normalized. *)
Definition misconfigured : Collaborators :=
  {| normalizeSettings := fun _ => inl "InvalidSettings";
     reduxInitialize := fun _ _ => (7, inr initial);
     reduxRender := fun _ _ => about;
     parseLocation := parse;
     getLocationUrl := getLocationUrl_spec;
     render_before_content := fun _ => before_html;
     render_after_content := fun _ => after_html;
     generateMetaTagsMarkup := fun _ => [] |}.

End Demo.

(** ** Properties *)

Section Properties.
Context {Sg : Signature} {Co : Collaborators}.
Local Open Scope render_scope.

Implicit Types (w : world) (s : Settings) (o : Options)
  (init : InitializeResult) (page : PageResult) (e : thrown).

Lemma requested_redirect_from calls (r : Location) :
  fold_left (fun redirect to => redirect_closure to redirect) calls (Some r) = Some r.
Proof. induction calls as [|to calls IH]; simpl; auto. Qed.

Lemma requested_redirect_head calls :
  requested_redirect calls = parseLocation <$> hd_error calls.
Proof.
  destruct calls as [|to calls]; [reflexivity|].
  unfold requested_redirect; simpl. apply requested_redirect_from.
Qed.

Lemma count_snoc (f : event -> bool) (t : list event) (ev : event) :
  length (List.filter f (t ++ [ev])) =
    (length (List.filter f t) + if f ev then 1 else 0)%nat.
Proof.
  rewrite List.filter_app, length_app. simpl. by destruct (f ev).
Qed.

Lemma handler_invocations_snoc t ev :
  handler_invocations (t ++ [ev]) =
    (handler_invocations t + if is_handler_call ev then 1 else 0)%nat.
Proof. apply count_snoc. Qed.

Lemma elements_rendered_snoc t ev :
  elements_rendered (t ++ [ev]) =
    (elements_rendered t + if is_element_rendering ev then 1 else 0)%nat.
Proof. apply count_snoc. Qed.

Lemma page_renderer_calls_snoc t ev :
  page_renderer_calls (t ++ [ev]) =
    (page_renderer_calls t + if is_page_renderer_call ev then 1 else 0)%nat.
Proof. apply count_snoc. Qed.

(** Up to the [try] block: settings are normalized, the timer is
    started, the initializer is awaited. *)
Lemma render_initializer_rejects (settings : RawSettings) o w s d (x : Exn) :
  normalizeSettings settings = inr s ->
  reduxInitialize s (initialize_arguments s o) = (d, inl x) ->
  render settings o w = (initialized w s o d, inl (External x)).
Proof.
  intros Hs Hi. unfold render, bind, call, timer, emit, await.
  rewrite Hs; simpl. by rewrite Hi.
Qed.

Lemma render_initializer_resolves (settings : RawSettings) o w s d init :
  normalizeSettings settings = inr s ->
  reduxInitialize s (initialize_arguments s o) = (d, inr init) ->
  render settings o w =
    try_catch
      (render_try s o (read_protected_cookie s o) init
         (timer_since (now w)) (request_path o))
      (render_catch s init (parseLocation (opt_url o)))
      (initialized w s o d).
Proof.
  intros Hs Hi. unfold render, bind, call, timer, emit, await.
  rewrite Hs; simpl. by rewrite Hi.
Qed.

(** The [catch] block, case by case. *)
Lemma render_catch_outcome s init (location : Location) e w :
  render_catch s init location e w =
    match onError s with
    | None => (w, inl e)
    | Some handler =>
        let p := error_parameters init location in
        (logged w (ErrorHandlerCalled e p),
         match completion (handler e p) with
         | Some e' => inl e'
         | None =>
             match hd_error (redirect_calls (handler e p)) with
             | Some to =>
                 inr (RedirectResult
                        (normalizeRedirect (parseLocation to) (basename s)))
             | None => inl e
             end
         end)
    end.
Proof.
  unfold render_catch. destruct (onError s) as [handler|]; [|reflexivity].
  unfold call_onError, bind, emit, throw, ret; simpl.
  rewrite requested_redirect_head.
  destruct (completion _); [reflexivity|].
  by destruct (hd_error _).
Qed.

(** The condition [assets.javascript && assets.javascript.main] holds
    when there is a [main] script and its URL is not the empty string. *)
Lemma has_main_javascript_spec (a : Assets) :
  has_main_javascript a = true <->
  exists (scripts : gmap string string) (main : string),
    javascript a = Some scripts /\
    scripts !! "main" = Some main /\
    main <> EmptyString.
Proof.
  unfold has_main_javascript. split.
  - destruct (javascript a) as [scripts|]; [|done].
    destruct (scripts !! "main") as [[|c main]|] eqn:Hm; [done| |done].
    intros _. by exists scripts, (String c main).
  - intros (scripts & main & -> & -> & Hne). by destruct main.
Qed.

(** [generateOuterHtml] throws exactly when no entry is known. *)
Lemma generateOuterHtml_outcome o (path : string) init pcv rc meta :
  generateOuterHtml o path init pcv rc meta =
    if entries_known (resolve (assets o) path (parameters init))
    then inr (render_before_content (before_arguments o path init meta),
              render_after_content
                (after_arguments o path init pcv (content_disabled rc)))
    else inl (ConfigurationError entries_required_message).
Proof.
  unfold generateOuterHtml, entries_known, before_arguments, after_arguments,
    effective_assets, content_disabled.
  destruct (entries _) eqn:He; [reflexivity|].
  by destruct (has_main_javascript _).
Qed.

Ltac run_try :=
  unfold render_try, timer_since, bind, call, emit, await, ret, throw,
    ReactDOM_renderToNodeStream; simpl.

(** The [try] block on the reserved path. *)
Lemma render_try_base s o pcv init t0 (path : string) w :
  is_base_path path = true ->
  render_try s o pcv init (timer_since t0) path w =
    match generateOuterHtml o path init pcv (Some false) ∅ with
    | inl e => (w, inl e)
    | inr (before_content, after_content) =>
        (w, inr (ContentResult
                   {| cr_route := "/react-website-base";
                      cr_status := 200;
                      cr_content :=
                        createStringStream (before_content +:+ after_content);
                      cr_time := None;
                      cr_cookies := [] |}))
    end.
Proof.
  intros Hp. run_try. rewrite Hp.
  by destruct (generateOuterHtml _ _ _ _ _ _) as [e|[b a]].
Qed.

(** The [try] block on any other path, by the way the Page Renderer
    call settles. *)
Lemma render_try_page_rejects s o pcv init t0 (path : string) w d (x : Exn) :
  is_base_path path = false ->
  reduxRender (parameters init) (routes s) = (d, inl x) ->
  render_try s o pcv init (timer_since t0) path w =
    (page_rendered w s init d, inl (External x)).
Proof.
  intros Hp Hr. run_try. rewrite Hp; simpl. by rewrite Hr.
Qed.

Lemma render_try_page_redirects s o pcv init t0 (path : string) w d page
    (redirect : Location) :
  is_base_path path = false ->
  reduxRender (parameters init) (routes s) = (d, inr page) ->
  pr_redirect page = Some redirect ->
  render_try s o pcv init (timer_since t0) path w =
    (page_rendered w s init d,
     inr (RedirectResult (normalizeRedirect redirect (basename s)))).
Proof.
  intros Hp Hr Hd. run_try. rewrite Hp; simpl. rewrite Hr; simpl.
  by rewrite Hd.
Qed.

Lemma render_try_page_resolves s o pcv init t0 (path : string) w d page :
  is_base_path path = false ->
  reduxRender (parameters init) (routes s) = (d, inr page) ->
  pr_redirect page = None ->
  render_try s o pcv init (timer_since t0) path w =
    match generateOuterHtml o path init pcv (renderContent o) (pr_meta page) with
    | inl e => (page_rendered w s init d, inl e)
    | inr (before_content, after_content) =>
        (page_streamed (page_rendered w s init d) s o page,
         inr (ContentResult
                {| cr_route := pr_route page;
                   cr_status := pr_status page;
                   cr_content :=
                     combineStreams
                       (page_streams s o page before_content after_content);
                   cr_time := Some (<["initialize" := now w - t0]> (pr_time page));
                   cr_cookies := cookiesToSet init |}))
    end.
Proof.
  intros Hp Hr Hd. run_try. rewrite Hp; simpl. rewrite Hr; simpl.
  rewrite Hd. destruct (generateOuterHtml _ _ _ _ _ _) as [e|[b a]]; [done|].
  unfold page_streams, page_streamed, content_disabled.
  by destruct (renderContent o) as [[|]|].
Qed.

Lemma append_empty_r (x : string) : x +:+ EmptyString = x.
Proof.
  induction x as [|c x IH]; [done|].
  change (String c (x +:+ EmptyString) = String c x). by rewrite IH.
Qed.

Lemma is_base_path_spec (p : string) :
  is_base_path p = true <-> replace_trailing_slash p = "/react-website-base".
Proof. unfold is_base_path. apply String.eqb_eq. Qed.

(** C1: on a path other than the reserved one, when the Page Renderer
    resolves without a redirect and [renderContent] is not [false], the
    content of the result is the combination of exactly three streams:
    the before-content fragment, the stream of the rendered page element,
    the after-content fragment, in this order; the page stream is the one
    spliced in at index 1. *)
Theorem render_content_between_fragments (settings : RawSettings) o w s d1
    init d2 page (before_content after_content : string) :
  normalizeSettings settings = inr s ->
  reduxInitialize s (initialize_arguments s o) = (d1, inr init) ->
  is_base_path (request_path o) = false ->
  reduxRender (parameters init) (routes s) = (d2, inr page) ->
  pr_redirect page = None ->
  renderContent o <> Some false ->
  generateOuterHtml o (request_path o) init (read_protected_cookie s o)
    (renderContent o) (pr_meta page) = inr (before_content, after_content) ->
  exists w' c,
    render settings o w = (w', inr (ContentResult c)) /\
    cr_content c =
      combineStreams
        [createStringStream before_content;
         NodeStream (page_element s page);
         createStringStream after_content] /\
    splice 1 (NodeStream (page_element s page))
      [createStringStream before_content; createStringStream after_content] =
      [createStringStream before_content;
       NodeStream (page_element s page);
       createStringStream after_content] /\
    forall markup : Element -> string,
      stream_output markup (cr_content c) =
        before_content +:+ markup (page_element s page) +:+ after_content.
Proof.
  intros Hs Hi Hp Hr Hd Hrc Hg.
  rewrite (render_initializer_resolves _ _ _ _ _ _ Hs Hi).
  unfold try_catch.
  rewrite (render_try_page_resolves _ _ _ _ _ _ _ _ _ Hp Hr Hd), Hg.
  eexists _, _. split; [reflexivity|]. simpl.
  assert (content_disabled (renderContent o) = false) as Hc.
  { destruct (renderContent o) as [[|]|]; done. }
  unfold page_streams. rewrite Hc.
  repeat split. intros markup. simpl. by rewrite append_empty_r.
Qed.


(** C3: when the State Initializer call rejects with [x], [render]
    rejects with [x] and the [onError] callback is not invoked, whatever
    the settings say about an error handler. *)
Theorem render_initializer_rejection_propagates (settings : RawSettings) o w
    s d (x : Exn) :
  normalizeSettings settings = inr s ->
  reduxInitialize s (initialize_arguments s o) = (d, inl x) ->
  exists w',
    render settings o w = (w', inl (External x)) /\
    handler_invocations (trace w') = handler_invocations (trace w).
Proof.
  intros Hs Hi. exists (initialized w s o d). split.
  - by apply render_initializer_rejects.
  - cbn [trace initialized]. rewrite handler_invocations_snoc.
    cbn [is_handler_call]. lia.
Qed.

Lemma elapsed_since_start w s o (d : Z) : now (initialized w s o d) - now w = d.
Proof. simpl. lia. Qed.

(** C4, as amended: when the Page Renderer rejects with [x] and the
    configured error handler returns normally, [render] resolves to the
    redirect to the basename-normalized target of the handler's first
    call of [redirect] if there is one, and rejects with [x] itself if the
    handler made no such call.  The handler is invoked once. *)
Theorem render_page_error_handler_outcome (settings : RawSettings) o w s d1
    init d2 (x : Exn) (handler : Handler) :
  normalizeSettings settings = inr s ->
  reduxInitialize s (initialize_arguments s o) = (d1, inr init) ->
  is_base_path (request_path o) = false ->
  reduxRender (parameters init) (routes s) = (d2, inl x) ->
  onError s = Some handler ->
  completion
    (handler (External x) (error_parameters init (parseLocation (opt_url o)))) = None ->
  exists w',
    render settings o w =
      (w',
       match
         hd_error
           (redirect_calls
              (handler (External x)
                 (error_parameters init (parseLocation (opt_url o)))))
       with
       | Some to =>
           inr (RedirectResult
                  (normalizeRedirect (parseLocation to) (basename s)))
       | None => inl (External x)
       end) /\
    handler_invocations (trace w') = S (handler_invocations (trace w)).
Proof.
  intros Hs Hi Hp Hr Hh Hc.
  rewrite (render_initializer_resolves _ _ _ _ _ _ Hs Hi).
  unfold try_catch.
  rewrite (render_try_page_rejects _ _ _ _ _ _ _ _ _ Hp Hr).
  rewrite render_catch_outcome, Hh. cbv zeta. rewrite Hc.
  eexists. split; [reflexivity|].
  cbn [trace logged page_rendered initialized].
  rewrite !handler_invocations_snoc. cbn [is_handler_call]. lia.
Qed.

(** C5: of the calls an error handler makes to [redirect], the first one
    records the parsed target and every later one changes nothing. *)
Theorem redirect_closure_first_call_wins (to : string) (later : list string)
    (recorded : Location) (again : string) :
  redirect_closure to None = Some (parseLocation to) /\
  redirect_closure again (Some recorded) = Some recorded /\
  requested_redirect (to :: later) = Some (parseLocation to).
Proof.
  repeat split. unfold requested_redirect. simpl.
  apply requested_redirect_from.
Qed.

(** C6: when the resolved assets have no [entries], outer-HTML
    generation goes on with [entries] set to the one-element list
    [main] if the assets have a [javascript.main] entry, and otherwise
    throws an error whose message starts by naming the required
    [assets.entries[]] parameter. *)
Theorem generateOuterHtml_default_entries o (path : string) init pcv rc meta
    (a : Assets) :
  resolve (assets o) path (parameters init) = a ->
  entries a = None ->
  generateOuterHtml o path init pcv rc meta =
    (if has_main_javascript a
     then
       inr (render_before_content
              {| bc_assets := set_entries a ["main"];
                 bc_locale := locales o !! 0%nat;
                 bc_meta := join (generateMetaTagsMarkup meta);
                 bc_head := resolve (head (html o)) path (parameters init);
                 bc_bodyStart := resolve (bodyStart (html o)) path (parameters init) |},
            render_after_content
              {| ac_javascript := generateJavascript init tt;
                 ac_assets := set_entries a ["main"];
                 ac_locale := locales o !! 0%nat;
                 ac_bodyEnd := resolve (bodyEnd (html o)) path (parameters init);
                 ac_protected_cookie_value := pcv;
                 ac_contentNotRendered := content_disabled rc |})
     else inl (ConfigurationError entries_required_message)) /\
  entries (set_entries a ["main"]) = Some ["main"] /\
  String.prefix
    (quoted "assets.entries[]" +:+ " configuration parameter is required")
    entries_required_message = true.
Proof.
  intros Ha He. repeat split.
  unfold generateOuterHtml. rewrite Ha, He.
  by destruct (has_main_javascript a).
Qed.

(** C7, as amended: the [time] member of a successful content result of
    a path other than the reserved one is the timing object returned by
    the Page Renderer with its [initialize] field set to the measured
    duration of the State Initializer call; every other field of the
    Page Renderer's timing object is kept as it is. *)
Theorem render_time_composition (settings : RawSettings) o w s d1 init d2 page
    (before_content after_content : string) :
  normalizeSettings settings = inr s ->
  reduxInitialize s (initialize_arguments s o) = (d1, inr init) ->
  is_base_path (request_path o) = false ->
  reduxRender (parameters init) (routes s) = (d2, inr page) ->
  pr_redirect page = None ->
  generateOuterHtml o (request_path o) init (read_protected_cookie s o)
    (renderContent o) (pr_meta page) = inr (before_content, after_content) ->
  exists w' c (time : gmap string Z),
    render settings o w = (w', inr (ContentResult c)) /\
    cr_time c = Some time /\
    time = <["initialize" := d1]> (pr_time page) /\
    time !! "initialize" = Some d1 /\
    forall field : string,
      field <> "initialize" -> time !! field = pr_time page !! field.
Proof.
  intros Hs Hi Hp Hr Hd Hg.
  rewrite (render_initializer_resolves _ _ _ _ _ _ Hs Hi).
  unfold try_catch.
  rewrite (render_try_page_resolves _ _ _ _ _ _ _ _ _ Hp Hr Hd), Hg.
  rewrite elapsed_since_start.
  eexists _, _, _. split; [reflexivity|]. cbn [cr_time].
  split; [reflexivity|]. split; [reflexivity|]. split.
  - apply lookup_insert_eq.
  - intros field Hf. by apply lookup_insert_ne.
Qed.

Lemma render_normalize_fails (settings : RawSettings) o w (x : Exn) :
  normalizeSettings settings = inl x ->
  render settings o w = (w, inl (External x)).
Proof. intros Hs. unfold render, bind, call. by rewrite Hs. Qed.

Lemma render_catch_redirect s init (location : Location) e w w' (str : string) :
  render_catch s init location e w = (w', inr (RedirectResult str)) ->
  exists target : Location,
    redirect_source s target /\ str = normalizeRedirect target (basename s).
Proof.
  rewrite render_catch_outcome.
  destruct (onError s) as [handler|] eqn:Hh; [|done]. cbv zeta.
  destruct (completion _); [done|].
  destruct (hd_error _) as [to|] eqn:Hto; [|done].
  intros [= _ <-]. exists (parseLocation to). split; [|done].
  right. by exists handler, e, (error_parameters init location), to.
Qed.

Lemma render_redirect_normalized (settings : RawSettings) o w w' (str : string) :
  render settings o w = (w', inr (RedirectResult str)) ->
  exists s (target : Location),
    normalizeSettings settings = inr s /\
    redirect_source s target /\
    str = normalizeRedirect target (basename s).
Proof.
  destruct (normalizeSettings settings) as [x|s] eqn:Hs.
  { by rewrite (render_normalize_fails _ _ _ _ Hs). }
  destruct (reduxInitialize s (initialize_arguments s o)) as [d1 [x|init]] eqn:Hi.
  { by rewrite (render_initializer_rejects _ _ _ _ _ _ Hs Hi). }
  rewrite (render_initializer_resolves _ _ _ _ _ _ Hs Hi).
  unfold try_catch.
  intros H. exists s.
  cut (exists target : Location,
          redirect_source s target /\ str = normalizeRedirect target (basename s)).
  { intros (target & ? & ?). by exists target. }
  destruct (is_base_path (request_path o)) eqn:Hp.
  - rewrite (render_try_base _ _ _ _ _ _ _ Hp) in H.
    destruct (generateOuterHtml _ _ _ _ _ _) as [e|[b a]]; [|done].
    by apply render_catch_redirect in H.
  - destruct (reduxRender (parameters init) (routes s)) as [d2 [x|page]] eqn:Hr.
    { rewrite (render_try_page_rejects _ _ _ _ _ _ _ _ _ Hp Hr) in H.
      by apply render_catch_redirect in H. }
    destruct (pr_redirect page) as [redirect|] eqn:Hd.
    { rewrite (render_try_page_redirects _ _ _ _ _ _ _ _ _ _ Hp Hr Hd) in H.
      injection H as _ <-. exists redirect. split; [|done].
      left. by exists init, d2, page. }
    rewrite (render_try_page_resolves _ _ _ _ _ _ _ _ _ Hp Hr Hd) in H.
    destruct (generateOuterHtml _ _ _ _ _ _) as [e|[b a]]; [|done].
    by apply render_catch_redirect in H.
Qed.

(** C8: every redirect result, from the Page Renderer's redirect
    descriptor or from the error handler's request, carries the
    normalized target: the serialization of the target location, with the
    configured basename in front when the target is relative.  The
    normalizer is a function of the target and the basename alone; with
    basename [/app] the target [/foo] gives [/app/foo]. *)
Theorem redirect_result_is_normalized :
  (forall (l : Location) (b : option string),
      getLocationUrl l b = getLocationUrl_spec l b) ->
  (forall (settings : RawSettings) o w w' (str : string),
      render settings o w = (w', inr (RedirectResult str)) ->
      exists s (target : Location),
        normalizeSettings settings = inr s /\
        redirect_source s target /\
        str = normalizeRedirect target (basename s) /\
        str =
          match origin target with
          | Some absolute => absolute +:+ pathname target +:+ search target
          | None =>
              default EmptyString (basename s) +:+
              pathname target +:+ search target
          end) /\
  (forall (settings : RawSettings) o w s d1 init d2 page (redirect : Location),
      normalizeSettings settings = inr s ->
      reduxInitialize s (initialize_arguments s o) = (d1, inr init) ->
      is_base_path (request_path o) = false ->
      reduxRender (parameters init) (routes s) = (d2, inr page) ->
      pr_redirect page = Some redirect ->
      (render settings o w).2 =
        inr (RedirectResult (normalizeRedirect redirect (basename s)))) /\
  normalizeRedirect
    {| origin := None; pathname := "/foo"; search := EmptyString |}
    (Some "/app") = "/app/foo".
Proof.
  intros Hurl. split; [|split].
  - intros settings o w w' str H.
    destruct (render_redirect_normalized _ _ _ _ _ H) as (s & target & Hs & Hsrc & ->).
    exists s, target. repeat split; [done..|].
    unfold normalizeRedirect. by rewrite Hurl.
  - intros settings o w s d1 init d2 page redirect Hs Hi Hp Hr Hd.
    rewrite (render_initializer_resolves _ _ _ _ _ _ Hs Hi).
    unfold try_catch.
    by rewrite (render_try_page_redirects _ _ _ _ _ _ _ _ _ _ Hp Hr Hd).
  - unfold normalizeRedirect. by rewrite Hurl.
Qed.

(** C9, as amended: a configuration error thrown by outer-HTML
    generation is caught by the same [catch] block as a page-render
    error.  Without an error handler it propagates.  A configured handler
    is invoked once with that error; when the handler returns normally,
    the result is the redirect it requested first, and the configuration
    error propagates if it requested none. *)
Theorem render_configuration_error_handling (settings : RawSettings) o w s d1
    init :
  normalizeSettings settings = inr s ->
  reduxInitialize s (initialize_arguments s o) = (d1, inr init) ->
  reaches_outer_html s o init ->
  entries_known (resolved_assets o init) = false ->
  (forall handler : Handler,
      onError s = Some handler ->
      completion
        (handler (ConfigurationError entries_required_message)
           (error_parameters init (parseLocation (opt_url o)))) = None) ->
  exists w',
    render settings o w =
      (w',
       match onError s with
       | None => inl (ConfigurationError entries_required_message)
       | Some handler =>
           match
             hd_error
               (redirect_calls
                  (handler (ConfigurationError entries_required_message)
                     (error_parameters init (parseLocation (opt_url o)))))
           with
           | Some to =>
               inr (RedirectResult
                      (normalizeRedirect (parseLocation to) (basename s)))
           | None => inl (ConfigurationError entries_required_message)
           end
       end) /\
    handler_invocations (trace w') =
      (handler_invocations (trace w) +
       match onError s with Some _ => 1 | None => 0 end)%nat.
Proof.
  intros Hs Hi Hreach Ha Hc.
  rewrite (render_initializer_resolves _ _ _ _ _ _ Hs Hi).
  unfold try_catch.
  assert (forall rc meta,
             generateOuterHtml o (request_path o) init
               (read_protected_cookie s o) rc meta =
               inl (ConfigurationError entries_required_message)) as Hg.
  { intros rc meta. rewrite generateOuterHtml_outcome.
    unfold resolved_assets in Ha. by rewrite Ha. }
  destruct Hreach as [Hp|(Hp & d2 & page & Hr & Hd)].
  - rewrite (render_try_base _ _ _ _ _ _ _ Hp), Hg, render_catch_outcome.
    destruct (onError s) as [handler|] eqn:Hh.
    + cbv zeta. rewrite (Hc handler eq_refl).
      eexists. split; [reflexivity|].
      cbn [trace logged initialized].
      rewrite !handler_invocations_snoc. cbn [is_handler_call]. lia.
    + eexists. split; [reflexivity|].
      cbn [trace initialized].
      rewrite !handler_invocations_snoc. cbn [is_handler_call]. lia.
  - rewrite (render_try_page_resolves _ _ _ _ _ _ _ _ _ Hp Hr Hd), Hg,
      render_catch_outcome.
    destruct (onError s) as [handler|] eqn:Hh.
    + cbv zeta. rewrite (Hc handler eq_refl).
      eexists. split; [reflexivity|].
      cbn [trace logged page_rendered initialized].
      rewrite !handler_invocations_snoc. cbn [is_handler_call]. lia.
    + eexists. split; [reflexivity|].
      cbn [trace page_rendered initialized].
      rewrite !handler_invocations_snoc. cbn [is_handler_call]. lia.
Qed.

(** C10: the result of the reserved-path branch has an empty [cookies]
    list, whatever cookies the State Initializer asked to set, and no
    [time] member; the content result of any other path carries the
    initializer's cookies-to-set and a [time] object. *)
Theorem static_shell_result_drops_cookies_and_time :
  (forall (settings : RawSettings) o w s d init (before_content after_content : string),
      normalizeSettings settings = inr s ->
      reduxInitialize s (initialize_arguments s o) = (d, inr init) ->
      is_base_path (request_path o) = true ->
      generateOuterHtml o (request_path o) init (read_protected_cookie s o)
        (Some false) ∅ = inr (before_content, after_content) ->
      exists c,
        (render settings o w).2 = inr (ContentResult c) /\
        cr_cookies c = [] /\
        cr_time c = None) /\
  (forall (settings : RawSettings) o w s d1 init d2 page
          (before_content after_content : string),
      normalizeSettings settings = inr s ->
      reduxInitialize s (initialize_arguments s o) = (d1, inr init) ->
      is_base_path (request_path o) = false ->
      reduxRender (parameters init) (routes s) = (d2, inr page) ->
      pr_redirect page = None ->
      generateOuterHtml o (request_path o) init (read_protected_cookie s o)
        (renderContent o) (pr_meta page) = inr (before_content, after_content) ->
      exists c,
        (render settings o w).2 = inr (ContentResult c) /\
        cr_cookies c = cookiesToSet init /\
        is_Some (cr_time c)).
Proof.
  split.
  - intros settings o w s d init b a Hs Hi Hp Hg.
    rewrite (render_initializer_resolves _ _ _ _ _ _ Hs Hi).
    unfold try_catch.
    rewrite (render_try_base _ _ _ _ _ _ _ Hp), Hg.
    by eexists.
  - intros settings o w s d1 init d2 page b a Hs Hi Hp Hr Hd Hg.
    rewrite (render_initializer_resolves _ _ _ _ _ _ Hs Hi).
    unfold try_catch.
    rewrite (render_try_page_resolves _ _ _ _ _ _ _ _ _ Hp Hr Hd), Hg.
    by eexists.
Qed.

End Properties.

(** ** Further properties of the program *)

Section Outcomes.
Context {Sg : Signature} {Co : Collaborators}.

Implicit Types (w : world) (s : Settings) (o : Options)
  (init : InitializeResult) (page : PageResult) (e : thrown).

Lemma append_cons (c : ascii) (x y : string) :
  String c x +:+ y = String c (x +:+ y).
Proof. reflexivity. Qed.

Lemma replace_trailing_slash_cons (c d : ascii) (x : string) :
  replace_trailing_slash (String c (String d x)) =
    String c (replace_trailing_slash (String d x)).
Proof. reflexivity. Qed.

Lemma replace_trailing_slash_append (x : string) :
  replace_trailing_slash (x +:+ "/") = x.
Proof.
  induction x as [|c x IH]; [reflexivity|].
  rewrite append_cons. destruct x as [|d x].
  - reflexivity.
  - rewrite append_cons in *. by rewrite replace_trailing_slash_cons, IH.
Qed.

Lemma replace_trailing_slash_cases (x : string) :
  replace_trailing_slash x = x \/ x = replace_trailing_slash x +:+ "/".
Proof.
  induction x as [|c x IH]; [by left|].
  destruct x as [|d x].
  - simpl. destruct (Ascii.eqb_spec c "/") as [->|]; [by right|by left].
  - rewrite replace_trailing_slash_cons, append_cons.
    destruct IH as [IH|IH]; [left|right]; congruence.
Qed.

(** X1: the pattern removes exactly one trailing slash.  A string that
    ends with a slash loses that slash and nothing else, also when more
    slashes come before it; any other string is left as it is. *)
Theorem replace_trailing_slash_removes_one (x : string) :
  replace_trailing_slash (x +:+ "/") = x /\
  (replace_trailing_slash x = x \/ x = replace_trailing_slash x +:+ "/").
Proof.
  split; [apply replace_trailing_slash_append|apply replace_trailing_slash_cases].
Qed.

(** X2: the static-export branch is taken for exactly two pathnames: the
    reserved path and the reserved path followed by one slash. *)
Theorem is_base_path_iff (pathname : string) :
  is_base_path pathname = true <->
  pathname = "/react-website-base" \/ pathname = "/react-website-base/".
Proof.
  rewrite is_base_path_spec. split.
  - intros H. destruct (replace_trailing_slash_cases pathname) as [H'|H'].
    + left. congruence.
    + right. rewrite H'. by rewrite H.
  - by intros [->| ->].
Qed.

(** Going through [render] case by case: the settings, the initializer,
    the path, the assets, the Page Renderer, the handler. *)
Ltac catch_cases s :=
  rewrite render_catch_outcome;
  destruct (onError s) as [handler|] eqn:Hh;
  [ cbv zeta;
    destruct (completion _) as [e'|] eqn:Hc;
    [ | destruct (hd_error _) as [to|] eqn:Hto ]
  | ].

Ltac render_cases settings o w :=
  destruct (normalizeSettings settings) as [x|s] eqn:Hs;
  [ rewrite (render_normalize_fails settings o w x Hs)
  | destruct (reduxInitialize s (initialize_arguments s o))
      as [d1 [x|init]] eqn:Hi;
    [ rewrite (render_initializer_rejects settings o w s d1 x Hs Hi)
    | rewrite (render_initializer_resolves settings o w s d1 init Hs Hi);
      unfold try_catch;
      destruct (is_base_path (request_path o)) eqn:Hp;
      [ rewrite (render_try_base _ _ _ _ _ _ _ Hp), generateOuterHtml_outcome;
        destruct (entries_known _) eqn:Hk; [ | catch_cases s ]
      | destruct (reduxRender (parameters init) (routes s))
          as [d2 [x|page]] eqn:Hr;
        [ rewrite (render_try_page_rejects _ _ _ _ _ _ _ _ _ Hp Hr);
          catch_cases s
        | destruct (pr_redirect page) as [redirect|] eqn:Hd;
          [ rewrite (render_try_page_redirects _ _ _ _ _ _ _ _ _ _ Hp Hr Hd)
          | rewrite (render_try_page_resolves _ _ _ _ _ _ _ _ _ Hp Hr Hd),
              generateOuterHtml_outcome;
            destruct (entries_known _) eqn:Hk; [ | catch_cases s ] ] ] ] ] ].

Ltac trace_steps :=
  unfold page_streamed;
  repeat match goal with
         | |- context [content_disabled ?rc] => destruct (content_disabled rc)
         end;
  cbn [trace logged page_rendered initialized fst snd];
  rewrite <- ?app_assoc; cbn [app].

Lemma count_app (f : event -> bool) (t1 t2 : list event) :
  length (List.filter f (t1 ++ t2)) =
    (length (List.filter f t1) + length (List.filter f t2))%nat.
Proof. by rewrite List.filter_app, length_app. Qed.

(** X3: whatever happens, [render] only adds to the record of calls, and
    in one run it calls the State Initializer, the Page Renderer, the
    React stream renderer and the error handler at most once each. *)
Theorem render_calls_at_most_once (settings : RawSettings) o w :
  exists evs : list event,
    trace (render settings o w).1 = (trace w ++ evs)%list /\
    (initializer_calls evs <= 1)%nat /\
    (page_renderer_calls evs <= 1)%nat /\
    (elements_rendered evs <= 1)%nat /\
    (handler_invocations evs <= 1)%nat.
Proof.
  render_cases settings o w; trace_steps;
    try (exists []; rewrite app_nil_r; repeat split; cbn; lia);
    (eexists; split; [reflexivity|]; repeat split; cbn; lia).
Qed.

(** X4: where a content result comes from.  On the reserved path it is
    the fixed shell descriptor (status 200, no cookies, no [time]); on
    any other path its route and status are those the Page Renderer
    resolved with, its cookies those of the State Initializer, and its
    [time] the renderer's with [initialize] set.  In both cases the
    settings were normalized, the initializer resolved and the assets had
    entries or a main script. *)
Theorem render_content_result_origin (settings : RawSettings) o w w'
    (c : ContentDescriptor) :
  render settings o w = (w', inr (ContentResult c)) ->
  exists s (d1 : Z) init,
    normalizeSettings settings = inr s /\
    reduxInitialize s (initialize_arguments s o) = (d1, inr init) /\
    entries_known (resolved_assets o init) = true /\
    if is_base_path (request_path o)
    then
      cr_route c = "/react-website-base" /\
      cr_status c = 200 /\
      cr_cookies c = [] /\
      cr_time c = None
    else
      exists (d2 : Z) page,
        reduxRender (parameters init) (routes s) = (d2, inr page) /\
        pr_redirect page = None /\
        cr_route c = pr_route page /\
        cr_status c = pr_status page /\
        cr_cookies c = cookiesToSet init /\
        cr_time c = Some (<["initialize" := d1]> (pr_time page)).
Proof.
  render_cases settings o w; rewrite ?elapsed_since_start; intros H;
    try discriminate H;
    injection H as _ <-; exists s, d1, init; rewrite ?Hp;
    (split; [done|]); (split; [done|]); (split; [done|]).
  - done.
  - by exists d2, page.
Qed.

(** X5: a run that ends with a content result has not invoked the error
    handler. *)
Theorem render_content_result_without_handler (settings : RawSettings) o w w'
    (c : ContentDescriptor) :
  render settings o w = (w', inr (ContentResult c)) ->
  handler_invocations (trace w') = handler_invocations (trace w).
Proof.
  render_cases settings o w; intros H; try discriminate H;
    injection H as <- _; trace_steps;
    unfold handler_invocations; rewrite count_app; cbn; lia.
Qed.

(** X6: a page element is handed to React only in a run that ends with a
    content result: a run that rejects or redirects has rendered none. *)
Theorem render_without_content_renders_no_element (settings : RawSettings) o w :
  (forall c : ContentDescriptor,
      (render settings o w).2 <> inr (ContentResult c)) ->
  elements_rendered (trace (render settings o w).1) = elements_rendered (trace w).
Proof.
  render_cases settings o w; intros H;
    try (exfalso; eapply H; reflexivity);
    trace_steps; try reflexivity;
    unfold elements_rendered; rewrite count_app; cbn; lia.
Qed.

(** X7: on the reserved path neither the Page Renderer nor React is ever
    called, whether the run ends with the shell, with a redirect asked
    for by the error handler, or with an error. *)
Theorem render_base_path_never_renders (settings : RawSettings) o w :
  is_base_path (request_path o) = true ->
  page_renderer_calls (trace (render settings o w).1) =
    page_renderer_calls (trace w) /\
  elements_rendered (trace (render settings o w).1) =
    elements_rendered (trace w).
Proof.
  intros Hbase. render_cases settings o w; try congruence;
    trace_steps; try (split; reflexivity);
    unfold page_renderer_calls, elements_rendered; rewrite !count_app;
    cbn; lia.
Qed.

(** X8: once the settings are normalized, the State Initializer is the
    first collaborator called, with the normalized settings, and it is
    not called again. *)
Theorem render_initializer_called_first (settings : RawSettings) o w
    (normalized : Settings) :
  normalizeSettings settings = inr normalized ->
  exists rest : list event,
    trace (render settings o w).1 =
      (trace w ++
       InitializerCalled normalized (initialize_arguments normalized o) :: rest)%list /\
    initializer_calls rest = 0%nat.
Proof.
  intros Hnorm. render_cases settings o w; [congruence|..];
    injection Hnorm as <-; trace_steps;
    (eexists; split; [reflexivity|reflexivity]).
Qed.

(** X9: when the settings cannot be normalized, [render] rejects with
    the normalizer's error before anything else happens: no collaborator
    is called and no time passes. *)
Theorem render_settings_rejected (settings : RawSettings) o w (x : Exn) :
  normalizeSettings settings = inl x ->
  render settings o w = (w, inl (External x)) /\
  initializer_calls (trace (render settings o w).1) = initializer_calls (trace w) /\
  handler_invocations (trace (render settings o w).1) =
    handler_invocations (trace w).
Proof.
  intros Hnorm. by rewrite (render_normalize_fails _ _ _ _ Hnorm).
Qed.

(** X10: with [renderContent] set to [false] on a path other than the
    reserved one, the Page Renderer is still called, but the content is
    made of the two fragments alone, no page element is handed to React,
    and the after-content template is told that the content was not
    rendered.  The other members of the result are those of a full
    render. *)
Theorem render_content_disabled (settings : RawSettings) o w s d1 init d2 page :
  normalizeSettings settings = inr s ->
  reduxInitialize s (initialize_arguments s o) = (d1, inr init) ->
  is_base_path (request_path o) = false ->
  reduxRender (parameters init) (routes s) = (d2, inr page) ->
  pr_redirect page = None ->
  renderContent o = Some false ->
  entries_known (resolved_assets o init) = true ->
  exists w' (before_content after_content : string),
    before_content =
      render_before_content
        (before_arguments o (request_path o) init (pr_meta page)) /\
    after_content =
      render_after_content
        (after_arguments o (request_path o) init (read_protected_cookie s o) true) /\
    render settings o w =
      (w', inr (ContentResult
                  {| cr_route := pr_route page;
                     cr_status := pr_status page;
                     cr_content :=
                       combineStreams
                         [createStringStream before_content;
                          createStringStream after_content];
                     cr_time := Some (<["initialize" := d1]> (pr_time page));
                     cr_cookies := cookiesToSet init |})) /\
    page_renderer_calls (trace w') = S (page_renderer_calls (trace w)) /\
    elements_rendered (trace w') = elements_rendered (trace w) /\
    forall markup : Element -> string,
      stream_output markup
        (combineStreams
           [createStringStream before_content;
            createStringStream after_content]) =
        before_content +:+ after_content.
Proof.
  intros Hs Hi Hp Hr Hd Hrc Hk.
  rewrite (render_initializer_resolves _ _ _ _ _ _ Hs Hi). unfold try_catch.
  rewrite (render_try_page_resolves _ _ _ _ _ _ _ _ _ Hp Hr Hd),
    generateOuterHtml_outcome.
  unfold resolved_assets in Hk. rewrite Hk, elapsed_since_start.
  unfold page_streams, page_streamed. rewrite Hrc. cbn [content_disabled].
  eexists _, _, _. split; [reflexivity|]. split; [reflexivity|].
  split; [reflexivity|].
  cbn [trace page_rendered initialized].
  rewrite !page_renderer_calls_snoc, !elements_rendered_snoc.
  cbn [is_page_renderer_call is_element_rendering].
  repeat split; try lia.
  intros markup. simpl. by rewrite append_empty_r.
Qed.

(** X11: a redirect descriptor from the Page Renderer ends the run at
    once.  The outer HTML is not generated, so the redirect is returned
    even when the assets have neither entries nor a main script; no page
    element is rendered and the error handler is not invoked. *)
Theorem render_page_redirect_skips_outer_html (settings : RawSettings) o w s d1
    init d2 page (redirect : Location) :
  normalizeSettings settings = inr s ->
  reduxInitialize s (initialize_arguments s o) = (d1, inr init) ->
  is_base_path (request_path o) = false ->
  reduxRender (parameters init) (routes s) = (d2, inr page) ->
  pr_redirect page = Some redirect ->
  exists w',
    render settings o w =
      (w', inr (RedirectResult (normalizeRedirect redirect (basename s)))) /\
    elements_rendered (trace w') = elements_rendered (trace w) /\
    handler_invocations (trace w') = handler_invocations (trace w).
Proof.
  intros Hs Hi Hp Hr Hd.
  rewrite (render_initializer_resolves _ _ _ _ _ _ Hs Hi). unfold try_catch.
  rewrite (render_try_page_redirects _ _ _ _ _ _ _ _ _ _ Hp Hr Hd).
  eexists. split; [reflexivity|].
  cbn [trace page_rendered initialized].
  rewrite !elements_rendered_snoc, !handler_invocations_snoc.
  cbn [is_element_rendering is_handler_call]. lia.
Qed.

(** X12: without an error handler in the settings, a rejection of the
    Page Renderer is the rejection of [render], with the same error. *)
Theorem render_without_handler_propagates (settings : RawSettings) o w s d1
    init d2 (x : Exn) :
  normalizeSettings settings = inr s ->
  reduxInitialize s (initialize_arguments s o) = (d1, inr init) ->
  is_base_path (request_path o) = false ->
  reduxRender (parameters init) (routes s) = (d2, inl x) ->
  onError s = None ->
  render settings o w =
    (page_rendered (initialized w s o d1) s init d2, inl (External x)).
Proof.
  intros Hs Hi Hp Hr Hh.
  rewrite (render_initializer_resolves _ _ _ _ _ _ Hs Hi). unfold try_catch.
  rewrite (render_try_page_rejects _ _ _ _ _ _ _ _ _ Hp Hr).
  by rewrite render_catch_outcome, Hh.
Qed.

(** X13: the configuration error about [assets.entries[]] is thrown
    exactly when the resolved assets have no [entries] and no main
    script.  The condition mentions neither the metadata nor
    [renderContent] nor the protected cookie: the test comes before any
    of them is used. *)
Theorem generateOuterHtml_fails_iff o (path : string) init pcv rc meta :
  generateOuterHtml o path init pcv rc meta =
    inl (ConfigurationError entries_required_message) <->
  entries (resolve (assets o) path (parameters init)) = None /\
  has_main_javascript (resolve (assets o) path (parameters init)) = false.
Proof.
  rewrite generateOuterHtml_outcome. unfold entries_known.
  destruct (entries _) as [l|]; [|destruct (has_main_javascript _)];
    split; try done; by intros [? ?].
Qed.

(** X14: an [entries] list that is present is used as it is: neither
    replaced by the default nor checked against the scripts.  This holds
    for the empty list too, which is an object and so passes the test. *)
Theorem generateOuterHtml_keeps_entries o (path : string) init pcv rc meta
    (a : Assets) (l : list string) :
  resolve (assets o) path (parameters init) = a ->
  entries a = Some l ->
  generateOuterHtml o path init pcv rc meta =
    inr (render_before_content
           {| bc_assets := a;
              bc_locale := locales o !! 0%nat;
              bc_meta := join (generateMetaTagsMarkup meta);
              bc_head := resolve (head (html o)) path (parameters init);
              bc_bodyStart := resolve (bodyStart (html o)) path (parameters init) |},
         render_after_content
           {| ac_javascript := generateJavascript init tt;
              ac_assets := a;
              ac_locale := locales o !! 0%nat;
              ac_bodyEnd := resolve (bodyEnd (html o)) path (parameters init);
              ac_protected_cookie_value := pcv;
              ac_contentNotRendered := content_disabled rc |}).
Proof.
  intros Ha He. unfold generateOuterHtml. by rewrite Ha, He.
Qed.

(** X15: whenever the two templates are called they are given the same
    assets, with [entries] set and the scripts of the resolved assets
    untouched, and the same locale, the first of [locales]. *)
Theorem generateOuterHtml_templates_agree o (path : string) init pcv rc meta
    (before_content after_content : string) :
  generateOuterHtml o path init pcv rc meta = inr (before_content, after_content) ->
  exists (before : BeforeContent) (after : AfterContent),
    before_content = render_before_content before /\
    after_content = render_after_content after /\
    bc_assets before = ac_assets after /\
    is_Some (entries (bc_assets before)) /\
    javascript (bc_assets before) =
      javascript (resolve (assets o) path (parameters init)) /\
    bc_locale before = ac_locale after /\
    bc_locale before = locales o !! 0%nat.
Proof.
  rewrite generateOuterHtml_outcome. unfold entries_known.
  intros H.
  exists (before_arguments o path init meta),
    (after_arguments o path init pcv (content_disabled rc)).
  destruct (entries (resolve (assets o) path (parameters init))) as [l|] eqn:He.
  - injection H as <- <-. unfold before_arguments, after_arguments,
      effective_assets. rewrite He. cbn. rewrite He. by repeat split.
  - destruct (has_main_javascript _); [|done].
    injection H as <- <-. unfold before_arguments, after_arguments,
      effective_assets. rewrite He. cbn. by repeat split.
Qed.

(** X16: the path reaches the outer HTML only through function-valued
    modifiers: when [assets] and the members of [html] are all literal,
    the generated fragments are the same for every path. *)
Theorem generateOuterHtml_literal_ignores_path o (path1 path2 : string) init
    pcv rc meta :
  literal_modifiers o = true ->
  generateOuterHtml o path1 init pcv rc meta =
    generateOuterHtml o path2 init pcv rc meta.
Proof.
  unfold literal_modifiers, generateOuterHtml.
  destruct (assets o), (head (html o)), (bodyStart (html o)), (bodyEnd (html o));
    done.
Qed.

(** X17: on the reserved path the [renderContent] option of the caller
    has no effect at all: the run and its result are the same for every
    value of it. *)
Theorem render_base_path_ignores_renderContent (settings : RawSettings) o w
    (rc : option bool) :
  is_base_path (request_path o) = true ->
  render settings (with_renderContent o rc) w = render settings o w.
Proof.
  intros Hbase.
  destruct (normalizeSettings settings) as [x|s] eqn:Hs.
  { by rewrite !(render_normalize_fails _ _ _ _ Hs). }
  destruct (reduxInitialize s (initialize_arguments s o)) as [d1 [x|init]] eqn:Hi.
  { rewrite (render_initializer_rejects settings o w s d1 x Hs Hi).
    by rewrite (render_initializer_rejects settings (with_renderContent o rc)
                  w s d1 x Hs Hi). }
  rewrite (render_initializer_resolves settings o w s d1 init Hs Hi).
  rewrite (render_initializer_resolves settings (with_renderContent o rc)
             w s d1 init Hs Hi).
  unfold try_catch.
  rewrite (render_try_base s o _ init _ _ _ Hbase).
  by rewrite (render_try_base s (with_renderContent o rc) _ init _ _ _ Hbase).
Qed.

(** X18: when the Page Renderer rejects and a handler is configured, the
    handler is called after the initializer and the Page Renderer, once,
    with the renderer's error itself and with [server] set, the pathname
    of the request and its URL serialized without basename.  This is so
    whatever the handler then does. *)
Theorem render_handler_receives_error (settings : RawSettings) o w s d1 init d2
    (x : Exn) (handler : Handler) :
  normalizeSettings settings = inr s ->
  reduxInitialize s (initialize_arguments s o) = (d1, inr init) ->
  is_base_path (request_path o) = false ->
  reduxRender (parameters init) (routes s) = (d2, inl x) ->
  onError s = Some handler ->
  trace (render settings o w).1 =
    (trace w ++
     [InitializerCalled s (initialize_arguments s o);
      PageRendererCalled (parameters init) (routes s);
      ErrorHandlerCalled (External x)
        {| server := true;
           path := pathname (parseLocation (opt_url o));
           url := getLocationUrl (parseLocation (opt_url o)) None;
           oe_getState := getState (store (parameters init)) |}])%list.
Proof.
  intros Hs Hi Hp Hr Hh.
  rewrite (render_initializer_resolves _ _ _ _ _ _ Hs Hi). unfold try_catch.
  rewrite (render_try_page_rejects _ _ _ _ _ _ _ _ _ Hp Hr).
  rewrite render_catch_outcome, Hh.
  cbn [fst trace logged page_rendered initialized].
  by rewrite <- !app_assoc.
Qed.

(** X19: when the Page Renderer rejects and the configured handler
    throws, [render] rejects with what the handler threw, whether or not
    the handler had called [redirect] before: the call of the handler is
    not guarded. *)
Theorem render_handler_throw_propagates (settings : RawSettings) o w s d1 init
    d2 (x : Exn) (handler : Handler) (thrown_by_handler : thrown) :
  normalizeSettings settings = inr s ->
  reduxInitialize s (initialize_arguments s o) = (d1, inr init) ->
  is_base_path (request_path o) = false ->
  reduxRender (parameters init) (routes s) = (d2, inl x) ->
  onError s = Some handler ->
  completion
    (handler (External x) (error_parameters init (parseLocation (opt_url o)))) =
    Some thrown_by_handler ->
  (render settings o w).2 = inl thrown_by_handler.
Proof.
  intros Hs Hi Hp Hr Hh Hc.
  rewrite (render_initializer_resolves _ _ _ _ _ _ Hs Hi). unfold try_catch.
  rewrite (render_try_page_rejects _ _ _ _ _ _ _ _ _ Hp Hr).
  rewrite render_catch_outcome, Hh. cbv zeta. by rewrite Hc.
Qed.

End Outcomes.

(** ** The theorems at work on the small site *)

#[local] Existing Instance Demo.signature.

Example replace_trailing_slash_once :
  replace_trailing_slash "/react-website-base/" = "/react-website-base" /\
  replace_trailing_slash "/react-website-base" = "/react-website-base" /\
  replace_trailing_slash "/react-website-base//" = "/react-website-base/".
Proof. repeat split. Qed.

Lemma render_content_between_fragments_witness :
  exists w' c,
    render (Co := Demo.served None Demo.about) tt
      (Demo.request "/about" Demo.bundled None) Demo.start =
      (w', inr (ContentResult c)) /\
    forall markup : Element -> string,
      stream_output markup (cr_content c) =
        Demo.before_html +:+
        markup (page_element (Demo.settings None) (Demo.page None ∅)) +:+
        Demo.after_html.
Proof.
  destruct
    (render_content_between_fragments (Co := Demo.served None Demo.about) tt
       (Demo.request "/about" Demo.bundled None) Demo.start
       (Demo.settings None) 7 Demo.initial 3 (Demo.page None ∅)
       Demo.before_html Demo.after_html)
    as (w' & c & Hrun & _ & _ & Hout);
    [reflexivity | reflexivity | reflexivity | reflexivity | reflexivity
    | discriminate | reflexivity | ].
  exists w', c. split; [exact Hrun | exact Hout].
Defined.



Lemma render_initializer_rejection_propagates_witness :
  exists w',
    render (Co := Demo.down (Some Demo.to_login)) tt
      (Demo.request "/about" Demo.bundled None) Demo.start =
      (w', inl (External "NetworkError")) /\
    handler_invocations (trace w') = handler_invocations (trace Demo.start).
Proof.
  apply (render_initializer_rejection_propagates
           (Co := Demo.down (Some Demo.to_login)) tt
           (Demo.request "/about" Demo.bundled None) Demo.start
           (Demo.settings (Some Demo.to_login)) 7 "NetworkError");
    reflexivity.
Defined.

Lemma render_page_error_handler_outcome_witness :
  (exists w',
      render (Co := Demo.served (Some Demo.to_login) Demo.broken) tt
        (Demo.request "/about" Demo.bundled None) Demo.start =
        (w', inr (RedirectResult "/app/login")) /\
      handler_invocations (trace w') = S (handler_invocations (trace Demo.start))) /\
  (exists w',
      render (Co := Demo.served (Some Demo.silent) Demo.broken) tt
        (Demo.request "/about" Demo.bundled None) Demo.start =
        (w', inl (External "PageError")) /\
      handler_invocations (trace w') = S (handler_invocations (trace Demo.start))).
Proof.
  split.
  - apply (render_page_error_handler_outcome
             (Co := Demo.served (Some Demo.to_login) Demo.broken) tt
             (Demo.request "/about" Demo.bundled None) Demo.start
             (Demo.settings (Some Demo.to_login)) 7 Demo.initial 3 "PageError"
             Demo.to_login);
      reflexivity.
  - apply (render_page_error_handler_outcome
             (Co := Demo.served (Some Demo.silent) Demo.broken) tt
             (Demo.request "/about" Demo.bundled None) Demo.start
             (Demo.settings (Some Demo.silent)) 7 Demo.initial 3 "PageError"
             Demo.silent);
      reflexivity.
Defined.

(** C4, the claim as it was stated fails: a handler that throws, having
    called [redirect] or not, makes [render] reject with the handler's
    error, neither with the redirect nor with the Page Renderer's error. *)
Lemma render_page_error_handler_throws :
  reduxRender (Collaborators := Demo.served (Some Demo.failing) Demo.broken)
    (parameters Demo.initial) (routes (Demo.settings (Some Demo.failing))) =
    (3, inl "PageError") /\
  onError (Demo.settings (Some Demo.failing)) = Some Demo.failing /\
  redirect_calls
    (Demo.failing (External "PageError")
       (error_parameters (Co := Demo.served (Some Demo.failing) Demo.broken)
          Demo.initial (Demo.parse "/about"))) = [] /\
  (render (Co := Demo.served (Some Demo.failing) Demo.broken) tt
     (Demo.request "/about" Demo.bundled None) Demo.start).2 =
    inl (External "HandlerError") /\
  (render (Co := Demo.served (Some Demo.failing) Demo.broken) tt
     (Demo.request "/about" Demo.bundled None) Demo.start).2 <>
    inl (External "PageError") /\
  redirect_calls
    (Demo.failing_after_redirect (External "PageError")
       (error_parameters
          (Co := Demo.served (Some Demo.failing_after_redirect) Demo.broken)
          Demo.initial (Demo.parse "/about"))) = ["/login"] /\
  (render (Co := Demo.served (Some Demo.failing_after_redirect) Demo.broken) tt
     (Demo.request "/about" Demo.bundled None) Demo.start).2 =
    inl (External "HandlerError").
Proof. repeat split. discriminate. Qed.

Lemma generateOuterHtml_default_entries_witness :
  generateOuterHtml (Co := Demo.served None Demo.about)
    (Demo.request "/about" Demo.bundled None) "/about" Demo.initial None None ∅ =
    inr (Demo.before_html, Demo.after_html) /\
  generateOuterHtml (Co := Demo.served None Demo.about)
    (Demo.request "/about" Demo.unbundled None) "/about" Demo.initial None None ∅ =
    inl (ConfigurationError entries_required_message).
Proof.
  split.
  - apply (proj1
             (generateOuterHtml_default_entries
                (Co := Demo.served None Demo.about)
                (Demo.request "/about" Demo.bundled None) "/about"
                Demo.initial None None ∅ Demo.bundled eq_refl eq_refl)).
  - apply (proj1
             (generateOuterHtml_default_entries
                (Co := Demo.served None Demo.about)
                (Demo.request "/about" Demo.unbundled None) "/about"
                Demo.initial None None ∅ Demo.unbundled eq_refl eq_refl)).
Defined.

Lemma render_time_composition_witness :
  exists w' c (time : gmap string Z),
    render
      (Co := Demo.served None (3, inr (Demo.page None {["preload" := 40]}))) tt
      (Demo.request "/about" Demo.bundled None) Demo.start =
      (w', inr (ContentResult c)) /\
    cr_time c = Some time /\
    time !! "initialize" = Some 7 /\
    time !! "preload" = Some 40.
Proof.
  destruct
    (render_time_composition
       (Co := Demo.served None (3, inr (Demo.page None {["preload" := 40]}))) tt
       (Demo.request "/about" Demo.bundled None) Demo.start
       (Demo.settings None) 7 Demo.initial 3 (Demo.page None {["preload" := 40]})
       Demo.before_html Demo.after_html)
    as (w' & c & time & Hrun & Htime & _ & Hinit & Hkept);
    [reflexivity | reflexivity | reflexivity | reflexivity | reflexivity
    | reflexivity | ].
  exists w', c, time. repeat split; [exact Hrun | exact Htime | exact Hinit | ].
  rewrite Hkept; [reflexivity | discriminate].
Defined.

(** C7, the claim as it was stated fails: a timing field named
    [initialize] returned by the Page Renderer is overwritten by the
    measured duration. *)
Lemma render_time_initialize_overwritten :
  exists c (time : gmap string Z),
    (render
       (Co := Demo.served None (3, inr (Demo.page None {["initialize" := 5]}))) tt
       (Demo.request "/about" Demo.bundled None) Demo.start).2 =
      inr (ContentResult c) /\
    cr_time c = Some time /\
    pr_time (Demo.page None {["initialize" := 5]}) !! "initialize" = Some 5 /\
    time !! "initialize" = Some 7 /\
    time !! "initialize" <> pr_time (Demo.page None {["initialize" := 5]}) !! "initialize".
Proof.
  eexists _, _. split; [reflexivity|]. split; [reflexivity|].
  repeat split. discriminate.
Qed.

Lemma redirect_result_is_normalized_witness :
  normalizeRedirect (Co := Demo.served None Demo.about) Demo.home (Some "/app") =
    "/app/foo" /\
  (render
     (Co := Demo.served None (3, inr (Demo.page (Some Demo.home) ∅))) tt
     (Demo.request "/about" Demo.bundled None) Demo.start).2 =
    inr (RedirectResult "/app/foo").
Proof.
  split.
  - apply (redirect_result_is_normalized (Co := Demo.served None Demo.about)
             (fun _ _ => eq_refl)).
  - apply (proj1 (proj2
             (redirect_result_is_normalized
                (Co := Demo.served None (3, inr (Demo.page (Some Demo.home) ∅)))
                (fun _ _ => eq_refl)))
             tt (Demo.request "/about" Demo.bundled None) Demo.start
             (Demo.settings None) 7 Demo.initial 3
             (Demo.page (Some Demo.home) ∅) Demo.home);
      reflexivity.
Defined.

Lemma render_configuration_error_handling_witness :
  exists w',
    render (Co := Demo.served (Some Demo.to_login) Demo.about) tt
      (Demo.request "/about" Demo.unbundled None) Demo.start =
      (w', inr (RedirectResult "/app/login")) /\
    handler_invocations (trace w') =
      (handler_invocations (trace Demo.start) + 1)%nat.
Proof.
  apply (render_configuration_error_handling
           (Co := Demo.served (Some Demo.to_login) Demo.about) tt
           (Demo.request "/about" Demo.unbundled None) Demo.start
           (Demo.settings (Some Demo.to_login)) 7 Demo.initial).
  - reflexivity.
  - reflexivity.
  - right. split; [reflexivity|]. exists 3, (Demo.page None ∅). split; reflexivity.
  - reflexivity.
  - intros handler [= <-]. reflexivity.
Defined.

(** C9, the claim as it was stated fails: when the handler requests no
    redirect but throws, it is the handler's error that reaches the
    caller, not the configuration error. *)
Lemma render_configuration_error_handler_throws :
  generateOuterHtml (Co := Demo.served (Some Demo.failing) Demo.about)
    (Demo.request "/about" Demo.unbundled None) "/about" Demo.initial None None ∅ =
    inl (ConfigurationError entries_required_message) /\
  redirect_calls
    (Demo.failing (ConfigurationError entries_required_message)
       (error_parameters (Co := Demo.served (Some Demo.failing) Demo.about)
          Demo.initial (Demo.parse "/about"))) = [] /\
  (render (Co := Demo.served (Some Demo.failing) Demo.about) tt
     (Demo.request "/about" Demo.unbundled None) Demo.start).2 =
    inl (External "HandlerError") /\
  (render (Co := Demo.served (Some Demo.failing) Demo.about) tt
     (Demo.request "/about" Demo.unbundled None) Demo.start).2 <>
    inl (ConfigurationError entries_required_message).
Proof. repeat split. discriminate. Qed.

Lemma static_shell_result_drops_cookies_and_time_witness :
  (exists c,
      (render (Co := Demo.served None Demo.about) tt
         (Demo.request "/react-website-base" Demo.bundled None) Demo.start).2 =
        inr (ContentResult c) /\
      cr_cookies c = [] /\ cr_time c = None) /\
  (exists c,
      (render (Co := Demo.served None Demo.about) tt
         (Demo.request "/about" Demo.bundled None) Demo.start).2 =
        inr (ContentResult c) /\
      cr_cookies c = cookiesToSet Demo.initial /\ is_Some (cr_time c)).
Proof.
  split.
  - apply (proj1 (static_shell_result_drops_cookies_and_time
                    (Co := Demo.served None Demo.about))
             tt (Demo.request "/react-website-base" Demo.bundled None) Demo.start
             (Demo.settings None) 7 Demo.initial
             Demo.before_html Demo.shell_after_html);
      reflexivity.
  - apply (proj2 (static_shell_result_drops_cookies_and_time
                    (Co := Demo.served None Demo.about))
             tt (Demo.request "/about" Demo.bundled None) Demo.start
             (Demo.settings None) 7 Demo.initial 3 (Demo.page None ∅)
             Demo.before_html Demo.after_html);
      reflexivity.
Defined.

(** ** The further properties at work on the small site *)

Lemma render_content_result_origin_witness :
  exists (s : Settings) (d1 : Z) (init : InitializeResult),
    normalizeSettings (Collaborators := Demo.served None Demo.about) tt = inr s /\
    reduxInitialize (Collaborators := Demo.served None Demo.about) s
      (initialize_arguments s (Demo.request "/about" Demo.bundled None)) =
      (d1, inr init) /\
    entries_known
      (resolved_assets (Co := Demo.served None Demo.about)
         (Demo.request "/about" Demo.bundled None) init) = true /\
    if is_base_path
         (request_path (Co := Demo.served None Demo.about)
            (Demo.request "/about" Demo.bundled None))
    then
      cr_route Demo.about_descriptor = "/react-website-base" /\
      cr_status Demo.about_descriptor = 200 /\
      cr_cookies Demo.about_descriptor = [] /\
      cr_time Demo.about_descriptor = None
    else
      exists (d2 : Z) (page : PageResult),
        reduxRender (Collaborators := Demo.served None Demo.about)
          (parameters init) (routes s) = (d2, inr page) /\
        pr_redirect page = None /\
        cr_route Demo.about_descriptor = pr_route page /\
        cr_status Demo.about_descriptor = pr_status page /\
        cr_cookies Demo.about_descriptor = cookiesToSet init /\
        cr_time Demo.about_descriptor =
          Some (<["initialize" := d1]> (pr_time page)).
Proof.
  apply (render_content_result_origin (Co := Demo.served None Demo.about) tt
           (Demo.request "/about" Demo.bundled None) Demo.start
           (render (Co := Demo.served None Demo.about) tt
              (Demo.request "/about" Demo.bundled None) Demo.start).1
           Demo.about_descriptor).
  reflexivity.
Defined.

Lemma render_content_result_without_handler_witness :
  handler_invocations
    (trace
       (render (Co := Demo.served (Some Demo.to_login) Demo.about) tt
          (Demo.request "/about" Demo.bundled None) Demo.start).1) =
    handler_invocations (trace Demo.start).
Proof.
  apply (render_content_result_without_handler
           (Co := Demo.served (Some Demo.to_login) Demo.about) tt
           (Demo.request "/about" Demo.bundled None) Demo.start _
           Demo.about_descriptor).
  reflexivity.
Defined.

Lemma render_without_content_renders_no_element_witness :
  elements_rendered
    (trace
       (render (Co := Demo.served (Some Demo.to_login) Demo.about) tt
          (Demo.request "/about" Demo.unbundled None) Demo.start).1) =
    elements_rendered (trace Demo.start).
Proof.
  apply (render_without_content_renders_no_element
           (Co := Demo.served (Some Demo.to_login) Demo.about) tt
           (Demo.request "/about" Demo.unbundled None) Demo.start).
  intros c. discriminate.
Defined.

Lemma render_base_path_never_renders_witness :
  (render (Co := Demo.served (Some Demo.to_login) Demo.about) tt
     (Demo.request "/react-website-base" Demo.unbundled None) Demo.start).2 =
    inr (RedirectResult "/app/login") /\
  page_renderer_calls
    (trace
       (render (Co := Demo.served (Some Demo.to_login) Demo.about) tt
          (Demo.request "/react-website-base" Demo.unbundled None) Demo.start).1) =
    page_renderer_calls (trace Demo.start) /\
  elements_rendered
    (trace
       (render (Co := Demo.served (Some Demo.to_login) Demo.about) tt
          (Demo.request "/react-website-base" Demo.unbundled None) Demo.start).1) =
    elements_rendered (trace Demo.start).
Proof.
  split; [reflexivity|].
  apply (render_base_path_never_renders
           (Co := Demo.served (Some Demo.to_login) Demo.about) tt
           (Demo.request "/react-website-base" Demo.unbundled None) Demo.start).
  reflexivity.
Defined.

Lemma render_initializer_called_first_witness :
  exists rest : list event,
    trace
      (render (Co := Demo.served None Demo.about) tt
         (Demo.request "/about" Demo.bundled None) Demo.start).1 =
      (trace Demo.start ++
       InitializerCalled (Demo.settings None)
         (initialize_arguments
            (Demo.settings None) (Demo.request "/about" Demo.bundled None))
       :: rest)%list /\
    initializer_calls rest = 0%nat.
Proof.
  apply (render_initializer_called_first (Co := Demo.served None Demo.about) tt
           (Demo.request "/about" Demo.bundled None) Demo.start
           (Demo.settings None)).
  reflexivity.
Defined.

Lemma render_settings_rejected_witness :
  render (Co := Demo.misconfigured) tt
    (Demo.request "/about" Demo.bundled None) Demo.start =
    (Demo.start, inl (External "InvalidSettings")).
Proof.
  apply (render_settings_rejected (Co := Demo.misconfigured) tt
           (Demo.request "/about" Demo.bundled None) Demo.start
           "InvalidSettings").
  reflexivity.
Defined.

Lemma render_content_disabled_witness :
  exists w',
    (render (Co := Demo.served None Demo.about) tt
       (Demo.request "/about" Demo.bundled (Some false)) Demo.start) =
      (w', inr (ContentResult
                  {| cr_route := "/about";
                     cr_status := 200;
                     cr_content :=
                       combineStreams
                         [createStringStream Demo.before_html;
                          createStringStream Demo.shell_after_html];
                     cr_time := Some {["initialize" := 7]};
                     cr_cookies := ["session=1"] |})) /\
    elements_rendered (trace w') = elements_rendered (trace Demo.start).
Proof.
  destruct
    (render_content_disabled (Co := Demo.served None Demo.about) tt
       (Demo.request "/about" Demo.bundled (Some false)) Demo.start
       (Demo.settings None) 7 Demo.initial 3 (Demo.page None ∅))
    as (w' & b & a & -> & -> & Hrun & _ & Hnone & _);
    [reflexivity | reflexivity | reflexivity | reflexivity | reflexivity
    | reflexivity | reflexivity | ].
  exists w'. split; [exact Hrun | exact Hnone].
Defined.

Lemma render_page_redirect_skips_outer_html_witness :
  exists w',
    render (Co := Demo.served (Some Demo.failing) Demo.moved) tt
      (Demo.request "/about" Demo.unbundled None) Demo.start =
      (w', inr (RedirectResult "/app/foo")) /\
    elements_rendered (trace w') = elements_rendered (trace Demo.start) /\
    handler_invocations (trace w') = handler_invocations (trace Demo.start).
Proof.
  apply (render_page_redirect_skips_outer_html
           (Co := Demo.served (Some Demo.failing) Demo.moved) tt
           (Demo.request "/about" Demo.unbundled None) Demo.start
           (Demo.settings (Some Demo.failing)) 7 Demo.initial 3
           (Demo.page (Some Demo.home) ∅) Demo.home);
    reflexivity.
Defined.

Lemma render_without_handler_propagates_witness :
  (render (Co := Demo.served None Demo.broken) tt
     (Demo.request "/about" Demo.bundled None) Demo.start).2 =
    inl (External "PageError").
Proof.
  rewrite (render_without_handler_propagates
             (Co := Demo.served None Demo.broken) tt
             (Demo.request "/about" Demo.bundled None) Demo.start
             (Demo.settings None) 7 Demo.initial 3 "PageError");
    reflexivity.
Defined.

Lemma generateOuterHtml_keeps_entries_witness :
  generateOuterHtml (Co := Demo.served None Demo.about)
    (Demo.request "/about" Demo.bare None) "/about" Demo.initial None None ∅ =
    inr (Demo.before_html, Demo.after_html).
Proof.
  apply (generateOuterHtml_keeps_entries (Co := Demo.served None Demo.about)
           (Demo.request "/about" Demo.bare None) "/about" Demo.initial
           None None ∅ Demo.bare [] eq_refl eq_refl).
Defined.

Lemma generateOuterHtml_templates_agree_witness :
  exists (before : BeforeContent) (after : AfterContent),
    Demo.before_html =
      render_before_content (Collaborators := Demo.served None Demo.about) before /\
    Demo.after_html =
      render_after_content (Collaborators := Demo.served None Demo.about) after /\
    bc_assets before = ac_assets after /\
    is_Some (entries (bc_assets before)) /\
    javascript (bc_assets before) = javascript Demo.bundled /\
    bc_locale before = ac_locale after /\
    bc_locale before = Some "en".
Proof.
  apply (generateOuterHtml_templates_agree (Co := Demo.served None Demo.about)
           (Demo.request "/about" Demo.bundled None) "/about" Demo.initial
           None None ∅ Demo.before_html Demo.after_html).
  reflexivity.
Defined.

Lemma generateOuterHtml_literal_ignores_path_witness :
  generateOuterHtml (Co := Demo.served None Demo.about)
    (Demo.request "/about" Demo.bundled None) "/about" Demo.initial None None ∅ =
  generateOuterHtml (Co := Demo.served None Demo.about)
    (Demo.request "/about" Demo.bundled None) "/contact" Demo.initial None None ∅.
Proof.
  apply (generateOuterHtml_literal_ignores_path
           (Co := Demo.served None Demo.about)
           (Demo.request "/about" Demo.bundled None) "/about" "/contact").
  reflexivity.
Defined.

Lemma render_base_path_ignores_renderContent_witness :
  render (Co := Demo.served None Demo.about) tt
    (with_renderContent
       (Demo.request "/react-website-base/" Demo.bundled None) (Some true))
    Demo.start =
  render (Co := Demo.served None Demo.about) tt
    (Demo.request "/react-website-base/" Demo.bundled None) Demo.start.
Proof.
  apply (render_base_path_ignores_renderContent
           (Co := Demo.served None Demo.about) tt
           (Demo.request "/react-website-base/" Demo.bundled None) Demo.start
           (Some true)).
  reflexivity.
Defined.

Lemma render_handler_receives_error_witness :
  length
    (trace
       (render (Co := Demo.served (Some Demo.failing) Demo.broken) tt
          (Demo.request "/about" Demo.bundled None) Demo.start).1) = 3%nat.
Proof.
  rewrite (render_handler_receives_error
             (Co := Demo.served (Some Demo.failing) Demo.broken) tt
             (Demo.request "/about" Demo.bundled None) Demo.start
             (Demo.settings (Some Demo.failing)) 7 Demo.initial 3 "PageError"
             Demo.failing);
    reflexivity.
Defined.

Lemma render_handler_throw_propagates_witness :
  (render (Co := Demo.served (Some Demo.failing_after_redirect) Demo.broken) tt
     (Demo.request "/about" Demo.bundled None) Demo.start).2 =
    inl (External "HandlerError").
Proof.
  apply (render_handler_throw_propagates
           (Co := Demo.served (Some Demo.failing_after_redirect) Demo.broken) tt
           (Demo.request "/about" Demo.bundled None) Demo.start
           (Demo.settings (Some Demo.failing_after_redirect)) 7 Demo.initial 3
           "PageError" Demo.failing_after_redirect
           (External (Sg := Demo.signature) "HandlerError"));
    reflexivity.
Defined.
